(** * libscopehal: TektronixOscilloscope.h and Waveform.h

    A shallow embedding of the Tektronix driver's channel index partition,
    its configuration cache, dirty-enable tracking and acquisition commit,
    and of the generic waveform container.

    Integer model (LP64): [unsigned int] is 32 bits, [size_t] is 64 bits;
    both are carried as [Z] with the wrap-around of unsigned arithmetic
    written out. *)

From Stdlib Require Import ZArith Lia List String Ascii SpecFloat.
From stdpp Require Import base gmap sets list strings.

Local Open Scope Z_scope.

(** ** Machine integers *)

Module MachineInt.

Definition UINT_BITS : Z := 32.
Definition SIZE_BITS : Z := 64.

Definition UINT_MAX1 : Z := 2 ^ UINT_BITS.
Definition SIZE_MAX1 : Z := 2 ^ SIZE_BITS.

(** Result of an [unsigned int] operation whose exact value is [x]. *)
Definition wrap_uint (x : Z) : Z := x mod UINT_MAX1.

(** Result of a [size_t] operation whose exact value is [x]. *)
Definition wrap_size (x : Z) : Z := x mod SIZE_MAX1.

Definition is_uint (x : Z) : Prop := 0 <= x < UINT_MAX1.
Definition is_size (x : Z) : Prop := 0 <= x < SIZE_MAX1.

End MachineInt.

(** ** Channel index partition (TektronixOscilloscope.h, IsAnalog / IsDigital /
    IsSpectrum) *)

Module Partition.
Import MachineInt.

(** The three members the classifiers read. *)
Record config := Config {
  m_analogChannelCount : Z;   (* unsigned int *)
  m_digitalChannelBase : Z;   (* size_t *)
  m_spectrumChannelBase : Z   (* size_t *)
}.

(** Every member holds a value of its C++ type. *)
Definition well_typed (c : config) : Prop :=
  is_uint (m_analogChannelCount c) /\
  is_size (m_digitalChannelBase c) /\
  is_size (m_spectrumChannelBase c).

(** [index < m_analogChannelCount], the count converted to [size_t]. *)
Definition IsAnalog (c : config) (index : Z) : bool :=
  index <? m_analogChannelCount c.

(** [8*m_analogChannelCount] is an [unsigned int] product; the sum with the
    base is a [size_t] sum. *)
Definition digital_end (c : config) : Z :=
  wrap_size (m_digitalChannelBase c + wrap_uint (8 * m_analogChannelCount c)).

Definition IsDigital (c : config) (index : Z) : bool :=
  if index <? m_digitalChannelBase c then false
  else if index >=? digital_end c then false
  else true.

Definition spectrum_end (c : config) : Z :=
  wrap_size (m_spectrumChannelBase c + m_analogChannelCount c).

Definition IsSpectrum (c : config) (index : Z) : bool :=
  if index <? m_spectrumChannelBase c then false
  else if index >=? spectrum_end c then false
  else true.

(** *** Statements about the classifiers *)

(** How many of the three classifiers answer true at one index. *)
Definition count_true (c : config) (i : Z) : Z :=
  Z.b2z (IsAnalog c i) + Z.b2z (IsDigital c i) + Z.b2z (IsSpectrum c i).

Definition exactly_one (c : config) (i : Z) : Prop := count_true c i = 1.

Definition none_of (c : config) (i : Z) : Prop := count_true c i = 0.

(** The three ranges are pairwise disjoint and exactly cover [[0, total)]:
    inside, one classifier answers true; outside, none does. *)
Definition partitions (c : config) (total : Z) : Prop :=
  forall i, is_size i ->
    (i < total -> exactly_one c i) /\ (total <= i -> none_of c i).

(** The classifiers agree with the ranges written with exact integers. *)
Definition matches_ranges (c : config) (i : Z) : Prop :=
  (IsAnalog c i = true <-> 0 <= i < m_analogChannelCount c) /\
  (IsDigital c i = true <->
     m_digitalChannelBase c <= i <
     m_digitalChannelBase c + 8 * m_analogChannelCount c) /\
  (IsSpectrum c i = true <->
     m_spectrumChannelBase c <= i <
     m_spectrumChannelBase c + m_analogChannelCount c).

(** No bound computation wraps around. *)
Definition no_wrap (c : config) : Prop :=
  8 * m_analogChannelCount c < UINT_MAX1 /\
  m_digitalChannelBase c + 8 * m_analogChannelCount c < SIZE_MAX1 /\
  m_spectrumChannelBase c + m_analogChannelCount c < SIZE_MAX1.

(** The digital and the spectrum range follow the analog range back to back,
    in either order, and end at [total]. *)
Definition back_to_back (c : config) (total : Z) : Prop :=
  let n := m_analogChannelCount c in
  total = 10 * n /\
  ((m_digitalChannelBase c = n /\ m_spectrumChannelBase c = 9 * n) \/
   (m_spectrumChannelBase c = n /\ m_digitalChannelBase c = 2 * n)).

(** An MSO5/6 with four analog inputs: analog 0..3, digital 4..35,
    spectrum 36..39. *)
Definition four_channel : config := Config 4 4 36.

(** All three ranges start at index 0. *)
Definition overlapping : config := Config 1 0 0.

(** [8*m_analogChannelCount] is [2^32]: the product wraps to 0. *)
Definition wrapping : config := Config 536870912 536870912 0.

End Partition.

(** ** Waveform.h *)

Module Waveform_h.
Local Open Scope nat_scope.

(** The storage of a scalar member: either never written since the object
    was created, or holding a value. *)
Inductive storage (T : Type) : Type :=
| Indeterminate : storage T
| Holds (v : T) : storage T.
Arguments Indeterminate {T}.
Arguments Holds {T} v.

(** [EmptyConstructorWrapper<T>]: a single member [m_value]. *)
Record EmptyConstructorWrapper (T : Type) : Type :=
  Wrapper { m_value : storage T }.
Arguments Wrapper {T} m_value.
Arguments m_value {T} e.

Module EmptyConstructorWrapper_.

(** [EmptyConstructorWrapper() {}]: the body is empty and [m_value] has no
    initializer. *)
Definition ctor {T : Type} : EmptyConstructorWrapper T :=
  Wrapper Indeterminate.

(** [EmptyConstructorWrapper(const T& rhs) : m_value(rhs) {}]. *)
Definition ctor_from {T : Type} (rhs : T) : EmptyConstructorWrapper T :=
  Wrapper (Holds rhs).

(** [operator T&()]. *)
Definition cast {T : Type} (this : EmptyConstructorWrapper T) : storage T :=
  m_value this.

(** [operator=(const T& rhs)]: [m_value = rhs]. *)
Definition assign {T : Type} (this : EmptyConstructorWrapper T) (rhs : T)
  : EmptyConstructorWrapper T :=
  Wrapper (Holds rhs).

End EmptyConstructorWrapper_.

(** What [std::vector<T>::resize] puts into a new element: the result of
    [T()]. *)
Class DefaultConstructible (T : Type) : Type := default_construct : T.

(** A class with a user-provided default constructor: [T()] runs it. *)
#[export] Instance EmptyConstructorWrapper_default (T : Type)
  : DefaultConstructible (EmptyConstructorWrapper T) :=
  EmptyConstructorWrapper_.ctor.

(** [float()] is positive zero. *)
#[export] Instance float_default : DefaultConstructible spec_float :=
  S754_zero false.

(** [char()] is the null character. *)
#[export] Instance char_default : DefaultConstructible ascii := zero.

(** [std::vector<bool>()] is the empty vector. *)
#[export] Instance vector_default (T : Type) : DefaultConstructible (list T) :=
  [].

Module vector.

(** [v.resize(n)]: keeps the first [n] elements and appends default
    constructed ones up to size [n]. *)
Definition resize {T : Type} `{DefaultConstructible T}
    (v : list T) (n : nat) : list T :=
  take n v ++ replicate (n - length v) default_construct.

(** [v.clear()]. *)
Definition clear {T : Type} (v : list T) : list T := [].

End vector.

(** [class WaveformBase]. *)
Record WaveformBase : Type := mkWaveformBase {
  m_timescale : storage Z;                       (* int64_t *)
  m_startTimestamp : Z;                          (* time_t *)
  m_startPicoseconds : Z;                        (* int64_t *)
  m_triggerPhase : spec_float;                   (* double *)
  m_offsets : list (EmptyConstructorWrapper Z);
  m_durations : list (EmptyConstructorWrapper Z)
}.

Module WaveformBase_.

(** [WaveformBase()]: the two vectors are default constructed (empty), the
    body assigns three members, [m_timescale] is not mentioned. *)
Definition ctor : WaveformBase :=
  {| m_timescale := Indeterminate;
     m_startTimestamp := 0%Z;
     m_startPicoseconds := 0%Z;
     m_triggerPhase := S754_zero false;
     m_offsets := [];
     m_durations := [] |}.

Definition clear (this : WaveformBase) : WaveformBase :=
  {| m_timescale := m_timescale this;
     m_startTimestamp := m_startTimestamp this;
     m_startPicoseconds := m_startPicoseconds this;
     m_triggerPhase := m_triggerPhase this;
     m_offsets := vector.clear (m_offsets this);
     m_durations := vector.clear (m_durations this) |}.

Definition Resize (this : WaveformBase) (size : nat) : WaveformBase :=
  {| m_timescale := m_timescale this;
     m_startTimestamp := m_startTimestamp this;
     m_startPicoseconds := m_startPicoseconds this;
     m_triggerPhase := m_triggerPhase this;
     m_offsets := vector.resize (m_offsets this) size;
     m_durations := vector.resize (m_durations this) size |}.

End WaveformBase_.

(** [template<class S> class Waveform : public WaveformBase]. *)
Record Waveform (S : Type) : Type := mkWaveform {
  base : WaveformBase;
  m_samples : list S
}.
Arguments mkWaveform {S} base m_samples.
Arguments base {S} w.
Arguments m_samples {S} w.

Module Waveform_.

(** The implicit constructor: base constructor, empty [m_samples]. *)
Definition ctor {S : Type} : Waveform S :=
  mkWaveform WaveformBase_.ctor [].

(** The override resizes the two inherited vectors and [m_samples]. *)
Definition Resize {S : Type} `{DefaultConstructible S}
    (this : Waveform S) (size : nat) : Waveform S :=
  let b := base this in
  mkWaveform
    {| m_timescale := m_timescale b;
       m_startTimestamp := m_startTimestamp b;
       m_startPicoseconds := m_startPicoseconds b;
       m_triggerPhase := m_triggerPhase b;
       m_offsets := vector.resize (m_offsets b) size;
       m_durations := vector.resize (m_durations b) size |}
    (vector.resize (m_samples this) size).

Definition clear {S : Type} (this : Waveform S) : Waveform S :=
  let b := base this in
  mkWaveform
    {| m_timescale := m_timescale b;
       m_startTimestamp := m_startTimestamp b;
       m_startPicoseconds := m_startPicoseconds b;
       m_triggerPhase := m_triggerPhase b;
       m_offsets := vector.clear (m_offsets b);
       m_durations := vector.clear (m_durations b) |}
    (vector.clear (m_samples this)).

End Waveform_.

Definition DigitalWaveform : Type := Waveform (EmptyConstructorWrapper bool).
Definition DigitalBusWaveform : Type := Waveform (list bool).
Definition AnalogWaveform : Type := Waveform spec_float.
Definition AsciiWaveform : Type := Waveform ascii.

(** The three per-sample sequences have the same number of elements. *)
Definition same_length {S : Type} (w : Waveform S) : Prop :=
  length (m_offsets (base w)) = length (m_samples w) /\
  length (m_durations (base w)) = length (m_samples w).

(** The entries of [after] at the positions [before] did not have. *)
Definition added {T : Type} (before after : list T) : list T :=
  drop (length before) after.

End Waveform_h.

(** ** Configuration cache (TektronixOscilloscope.h, "config cache") *)

Module ConfigCache.

Definition float : Type := spec_float.
Definition double : Type := spec_float.

(** [OscilloscopeChannel::CouplingType] is an enumeration declared outside
    these files; it is carried as its underlying integer. *)
Definition CouplingType : Type := Z.

(** The cached per-channel maps of the class, each keyed by channel ID. *)
Record cache : Type := mkCache {
  m_channelOffsets : gmap Z float;
  m_channelVoltageRanges : gmap Z float;
  m_channelDigitalThresholds : gmap Z float;
  m_channelCouplings : gmap Z CouplingType;
  m_channelAttenuations : gmap Z double;
  m_channelBandwidthLimits : gmap Z Z;
  m_channelsEnabled : gmap Z bool
}.

(** The property half of a cache key; the index is the type of the value
    the property's map holds. *)
Inductive property : Type -> Type :=
| Offset : property float
| VoltageRange : property float
| DigitalThreshold : property float
| Coupling : property CouplingType
| Attenuation : property double
| BandwidthLimit : property Z
| Enabled : property bool.

(** The map that caches property [p]. *)
Definition cached {V : Type} (p : property V) (c : cache) : gmap Z V :=
  match p in property V return gmap Z V with
  | Offset => m_channelOffsets c
  | VoltageRange => m_channelVoltageRanges c
  | DigitalThreshold => m_channelDigitalThresholds c
  | Coupling => m_channelCouplings c
  | Attenuation => m_channelAttenuations c
  | BandwidthLimit => m_channelBandwidthLimits c
  | Enabled => m_channelsEnabled c
  end.

(** The cache with the map of property [p] replaced by [m]. *)
Definition with_map {V : Type} (p : property V) (m : gmap Z V) (c : cache)
  : cache :=
  match p in property V return gmap Z V -> cache with
  | Offset => fun m =>
      mkCache m (m_channelVoltageRanges c) (m_channelDigitalThresholds c)
        (m_channelCouplings c) (m_channelAttenuations c)
        (m_channelBandwidthLimits c) (m_channelsEnabled c)
  | VoltageRange => fun m =>
      mkCache (m_channelOffsets c) m (m_channelDigitalThresholds c)
        (m_channelCouplings c) (m_channelAttenuations c)
        (m_channelBandwidthLimits c) (m_channelsEnabled c)
  | DigitalThreshold => fun m =>
      mkCache (m_channelOffsets c) (m_channelVoltageRanges c) m
        (m_channelCouplings c) (m_channelAttenuations c)
        (m_channelBandwidthLimits c) (m_channelsEnabled c)
  | Coupling => fun m =>
      mkCache (m_channelOffsets c) (m_channelVoltageRanges c)
        (m_channelDigitalThresholds c) m (m_channelAttenuations c)
        (m_channelBandwidthLimits c) (m_channelsEnabled c)
  | Attenuation => fun m =>
      mkCache (m_channelOffsets c) (m_channelVoltageRanges c)
        (m_channelDigitalThresholds c) (m_channelCouplings c) m
        (m_channelBandwidthLimits c) (m_channelsEnabled c)
  | BandwidthLimit => fun m =>
      mkCache (m_channelOffsets c) (m_channelVoltageRanges c)
        (m_channelDigitalThresholds c) (m_channelCouplings c)
        (m_channelAttenuations c) m (m_channelsEnabled c)
  | Enabled => fun m =>
      mkCache (m_channelOffsets c) (m_channelVoltageRanges c)
        (m_channelDigitalThresholds c) (m_channelCouplings c)
        (m_channelAttenuations c) (m_channelBandwidthLimits c) m
  end m.

(** [map[i] = v] on the map that caches property [p]. *)
Definition store {V : Type} (p : property V) (i : Z) (v : V) (c : cache)
  : cache :=
  with_map p (<[i:=v]> (cached p c)) c.

Definition empty_cache : cache := mkCache ∅ ∅ ∅ ∅ ∅ ∅ ∅.

(** The instrument at the far end of the link: the setting it holds for
    every channel and property, which is what it answers to a query. *)
Record instrument : Type := mkInstrument {
  dev_offset : Z -> float;
  dev_range : Z -> float;
  dev_threshold : Z -> float;
  dev_coupling : Z -> CouplingType;
  dev_attenuation : Z -> double;
  dev_bwlimit : Z -> Z;
  dev_enabled : Z -> bool
}.

Definition setting {V : Type} (p : property V) (d : instrument) : Z -> V :=
  match p in property V return Z -> V with
  | Offset => dev_offset d
  | VoltageRange => dev_range d
  | DigitalThreshold => dev_threshold d
  | Coupling => dev_coupling d
  | Attenuation => dev_attenuation d
  | BandwidthLimit => dev_bwlimit d
  | Enabled => dev_enabled d
  end.

Definition with_setting {V : Type} (p : property V) (f : Z -> V)
    (d : instrument) : instrument :=
  match p in property V return (Z -> V) -> instrument with
  | Offset => fun f =>
      mkInstrument f (dev_range d) (dev_threshold d) (dev_coupling d)
        (dev_attenuation d) (dev_bwlimit d) (dev_enabled d)
  | VoltageRange => fun f =>
      mkInstrument (dev_offset d) f (dev_threshold d) (dev_coupling d)
        (dev_attenuation d) (dev_bwlimit d) (dev_enabled d)
  | DigitalThreshold => fun f =>
      mkInstrument (dev_offset d) (dev_range d) f (dev_coupling d)
        (dev_attenuation d) (dev_bwlimit d) (dev_enabled d)
  | Coupling => fun f =>
      mkInstrument (dev_offset d) (dev_range d) (dev_threshold d) f
        (dev_attenuation d) (dev_bwlimit d) (dev_enabled d)
  | Attenuation => fun f =>
      mkInstrument (dev_offset d) (dev_range d) (dev_threshold d)
        (dev_coupling d) f (dev_bwlimit d) (dev_enabled d)
  | BandwidthLimit => fun f =>
      mkInstrument (dev_offset d) (dev_range d) (dev_threshold d)
        (dev_coupling d) (dev_attenuation d) f (dev_enabled d)
  | Enabled => fun f =>
      mkInstrument (dev_offset d) (dev_range d) (dev_threshold d)
        (dev_coupling d) (dev_attenuation d) (dev_bwlimit d) f
  end f.

(** The instrument after it was told to set property [p] of channel [i]
    to [v]. *)
Definition configure {V : Type} (p : property V) (i : Z) (v : V)
    (d : instrument) : instrument :=
  with_setting p (fun j => if decide (j = i) then v else setting p d j) d.

(** The driver with the link it talks over: the cache, the instrument, and
    how many commands were written and how many query round-trips were
    made so far. *)
Record driver : Type := mkDriver {
  config_cache : cache;
  device : instrument;
  commands_sent : nat;
  round_trips : nat
}.

(** Modelled from the spec: the bodies of the cached setters are not in the
    header. [set(channel, property, value)] "writes to device, then updates
    cache"; "a write sets the value and marks valid immediately". *)
Definition set {V : Type} (p : property V) (i : Z) (v : V) (s : driver)
  : driver :=
  mkDriver (store p i v (config_cache s))
           (configure p i v (device s))
           (S (commands_sent s))
           (round_trips s).

(** Modelled from the spec: the bodies of the cached getters are not in the
    header. [get(channel, property)] "fills from device if invalid, then
    returns"; "get on a miss performs exactly one round-trip". An entry is
    valid when its key is present in the map. *)
Definition get {V : Type} (p : property V) (i : Z) (s : driver)
  : V * driver :=
  match cached p (config_cache s) !! i with
  | Some v => (v, s)
  | None =>
      let v := setting p (device s) i in
      (v, mkDriver (store p i v (config_cache s))
                   (device s)
                   (commands_sent s)
                   (S (round_trips s)))
  end.

(** Modelled from the spec: the body of [FlushConfigCache] is not in the
    header. "All entries for a channel are dropped (marked invalid) on a
    global flush configuration cache event". *)
Definition FlushConfigCache (s : driver) : driver :=
  mkDriver empty_cache (device s) (commands_sent s) (round_trips s).

(** The four accessors of the header; the maps are keyed by channel ID
    only, so the stream index does not take part in the key. *)
Definition GetChannelOffset (i stream : Z) (s : driver) : float * driver :=
  get Offset i s.

Definition SetChannelOffset (i stream : Z) (offset : float) (s : driver)
  : driver :=
  set Offset i offset s.

Definition GetChannelVoltageRange (i stream : Z) (s : driver)
  : float * driver :=
  get VoltageRange i s.

Definition SetChannelVoltageRange (i stream : Z) (range : float) (s : driver)
  : driver :=
  set VoltageRange i range s.

(** A driver that has not talked to its instrument yet; the instrument
    holds zero everywhere. *)
Definition quiet_driver : driver :=
  mkDriver empty_cache
    (mkInstrument (fun _ => S754_zero false) (fun _ => S754_zero false)
       (fun _ => S754_zero false) (fun _ => 0) (fun _ => S754_zero false)
       (fun _ => 0) (fun _ => false))
    0 0.

End ConfigCache.

(** ** Enable-state dirty tracking (TektronixOscilloscope.h,
    m_channelEnableStatusDirty) *)

Module EnableState.

Record driver : Type := mkDriver {
  m_channelsEnabled : gmap Z bool;            (* std::map<int, bool> *)
  m_channelEnableStatusDirty : gset Z         (* std::set<size_t> *)
}.

(** Modelled from the spec: the body of [EnableChannel] is not in the
    header. "every EnableChannel/DisableChannel call records the channel
    index in the dirty-enable set". *)
Definition EnableChannel (i : Z) (s : driver) : driver :=
  mkDriver (<[i:=true]> (m_channelsEnabled s))
           ({[i]} ∪ m_channelEnableStatusDirty s).

(** Modelled from the spec: the body of [DisableChannel] is not in the
    header; see [EnableChannel]. *)
Definition DisableChannel (i : Z) (s : driver) : driver :=
  mkDriver (<[i:=false]> (m_channelsEnabled s))
           ({[i]} ∪ m_channelEnableStatusDirty s).

(** Modelled from the spec: the body of [IsEnableStateDirty] is not in the
    header. It reports membership in the dirty-enable set. *)
Definition IsEnableStateDirty (chan : Z) (s : driver) : bool :=
  bool_decide (chan ∈ m_channelEnableStatusDirty s).

(** Modelled from the spec: the body of [FlushChannelEnableStates] is not in
    the header. It "clears the set". *)
Definition FlushChannelEnableStates (s : driver) : driver :=
  mkDriver (m_channelsEnabled s) ∅.

(** The calls that touch the enable state. *)
Inductive call : Type :=
| CallEnableChannel (i : Z)
| CallDisableChannel (i : Z)
| CallFlushChannelEnableStates.

Definition is_flush (c : call) : bool :=
  match c with CallFlushChannelEnableStates => true | _ => false end.

Definition step (s : driver) (c : call) : driver :=
  match c with
  | CallEnableChannel i => EnableChannel i s
  | CallDisableChannel i => DisableChannel i s
  | CallFlushChannelEnableStates => FlushChannelEnableStates s
  end.

(** The calls of [cs] in order, starting from [s]. *)
Definition run (cs : list call) (s : driver) : driver := fold_left step cs s.

Definition initial : driver := mkDriver ∅ ∅.

Definition later_calls : list call :=
  [CallEnableChannel 5; CallDisableChannel 2; CallEnableChannel 7].

End EnableState.

(** ** Binary waveform header (TektronixOscilloscope.h, mso56_preamble) *)

Module Preamble.

Definition double : Type := spec_float.

(** [struct mso56_preamble]. Each anonymous union is one [double] object
    that two member names denote; it is carried as one field. *)
Record mso56_preamble : Type := mkPreamble {
  byte_num : Z;                 (* int *)
  bit_num : Z;                  (* int *)
  encoding : string;            (* char[32] *)
  bin_format : string;          (* char[32] *)
  asc_format : string;          (* char[32] *)
  byte_order : string;          (* char[32] *)
  wfid : string;                (* char[256] *)
  nr_pt : Z;                    (* int *)
  pt_fmt : string;              (* char[32] *)
  pt_order : string;            (* char[32] *)
  xunit : string;               (* char[32] *)
  xincrement_hzbase : double;   (* union { double xincrement; double hzbase; } *)
  xzero_hzoff : double;         (* union { double xzero; double hzoff; } *)
  pt_off : Z;                   (* int *)
  yunit : string;               (* char[32] *)
  ymult : double;
  yoff : double;
  yzero : double;
  domain : string;              (* char[32] *)
  wfmtype : string;             (* char[32] *)
  centerfreq : double;
  span : double
}.

Definition xincrement (p : mso56_preamble) : double := xincrement_hzbase p.
Definition hzbase (p : mso56_preamble) : double := xincrement_hzbase p.
Definition xzero (p : mso56_preamble) : double := xzero_hzoff p.
Definition hzoff (p : mso56_preamble) : double := xzero_hzoff p.

End Preamble.

(** ** Acquisition (TektronixOscilloscope.h, AcquireData /
    AcquireDataMSO56) *)

Module Acquisition.
Import Waveform_h.

(** Modelled from the spec: the header declares no error type (its
    acquisition methods return [bool]). These are the failure kinds the
    error-handling design names. *)
Inductive error : Type :=
| LinkTimeout
| ProtocolDesync
| DecodeError
| UnsupportedTriggerConfiguration
| InvalidChannelQuery.

(** Modelled from the spec: the transport and the decoder are not in these
    files. What fetching and decoding the block of one channel gives for
    the trigger event being read: the waveform to deposit, or the failure
    ("timeout, decode error"). *)
Definition reply : Type := error + WaveformBase.

(** The waveforms of one trigger event, by channel. *)
Abbreviation frame := (gmap Z WaveformBase).

(** [m_channelsEnabled] and [m_channelEnableStatusDirty] are the members
    of the header. Modelled from the spec: the queue the caller takes
    committed waveforms from belongs to the base class, which is not in
    these files; it holds one frame for each committed trigger event. *)
Record driver : Type := mkDriver {
  m_channelsEnabled : gmap Z bool;           (* std::map<int, bool> *)
  m_channelEnableStatusDirty : gset Z;       (* std::set<size_t> *)
  m_pendingWaveforms : list frame            (* what the caller can see *)
}.

(** Modelled from the spec: the body of [IsEnableStateDirty] is not in the
    header. It reports membership in the dirty-enable set. *)
Definition IsEnableStateDirty (chan : Z) (s : driver) : bool :=
  bool_decide (chan ∈ m_channelEnableStatusDirty s).

(** The channels whose cached enable flag is true. *)
Definition enabled_channels (s : driver) : list Z :=
  (map_to_list (filter (fun kv => kv.2 = true) (m_channelsEnabled s))).*1.

(** Modelled from the spec: the dirty-enable-set workaround the loop
    consults for each enabled channel. A channel in the set "must be
    independently re-verified before a read", because "reading a channel
    enabled after the trigger event silently returns no data";
    [available chan] is what that re-verification finds. A channel that is
    not in the set is read without it. *)
Definition readable (available : Z -> bool) (s : driver) (chan : Z) : bool :=
  negb (IsEnableStateDirty chan s) || available chan.

(** Modelled from the spec: the channels the loop reads, "each enabled
    channel (consulting the dirty-enable-set workaround)". *)
Definition event_channels (available : Z -> bool) (s : driver) : list Z :=
  List.filter (readable available s) (enabled_channels s).

(** Modelled from the spec: the pending map is declared in the header as
    the argument of [AcquireDataMSO56]; depositing "into that channel's
    waveform slot" is [pending_waveforms[i].push_back(w)]. *)
Definition push_back (i : Z) (w : WaveformBase)
    (pending : gmap Z (list WaveformBase)) : gmap Z (list WaveformBase) :=
  <[i := default [] (pending !! i) ++ [w]]> pending.

(** Modelled from the spec: the loop of [AcquireDataMSO56] over the
    channels to read. "Failure to read one channel's block (timeout,
    decode error) aborts the whole acquisition for that trigger event". *)
Fixpoint read_all (link : Z -> reply) (chans : list Z)
    (pending : gmap Z (list WaveformBase))
  : bool * gmap Z (list WaveformBase) :=
  match chans with
  | [] => (true, pending)
  | i :: rest =>
      match link i with
      | inl _ => (false, pending)
      | inr w => read_all link rest (push_back i w pending)
      end
  end.

(** Modelled from the spec: the body of [AcquireDataMSO56] is not in the
    header. "for each enabled channel (consulting the dirty-enable-set
    workaround below) it fetches the binary block, decodes the preamble
    ... and deposits the result into that channel's waveform slot in the
    pending map". The map is passed by reference, so it is returned with
    the verdict. *)
Definition AcquireDataMSO56 (link : Z -> reply) (available : Z -> bool)
    (s : driver) (pending_waveforms : gmap Z (list WaveformBase))
  : bool * gmap Z (list WaveformBase) :=
  read_all link (event_channels available s) pending_waveforms.

(** Modelled from the spec: the pending map holds "one entry per segment";
    the frame of the trigger event is the first entry of every channel. *)
Definition first_segment (pending : gmap Z (list WaveformBase)) : frame :=
  omap (fun l => l !! 0%nat) pending.

(** Modelled from the spec: the body of [AcquireData] is not in the header.
    "after all enabled channels are read, pending waveforms are committed
    atomically"; on a failure "partial per-channel data is discarded". *)
Definition AcquireData (link : Z -> reply) (available : Z -> bool)
    (s : driver) : bool * driver :=
  match AcquireDataMSO56 link available s ∅ with
  | (true, pending) =>
      (true, mkDriver (m_channelsEnabled s) (m_channelEnableStatusDirty s)
                      (m_pendingWaveforms s ++ [first_segment pending]))
  | (false, _) => (false, s)
  end.

(** Channel [i] is enabled and passes the workaround: it is part of the
    trigger event being read. *)
Definition in_event (available : Z -> bool) (s : driver) (i : Z) : Prop :=
  m_channelsEnabled s !! i = Some true /\
  (IsEnableStateDirty i s = false \/ available i = true).

(** Channel [i] of the event could not be read. *)
Definition fails (link : Z -> reply) (i : Z) : Prop :=
  exists e, link i = inl e.


(** A waveform told apart by its time scale. *)
Definition wave (timescale : Z) : WaveformBase :=
  mkWaveformBase (Holds timescale) 0 0 (S754_zero false) [] [].

(** A trigger event in which channel 0 and channel 2 can be read and
    channel 1 fails to decode. *)
Definition skewed_event (i : Z) : reply :=
  if decide (i = 0) then inr (wave 100)
  else if decide (i = 1) then inl DecodeError
  else if decide (i = 2) then inr (wave 200)
  else inl LinkTimeout.

Definition never (i : Z) : bool := false.

(** Channels 0 and 1 enabled, nothing dirty. *)
Definition both_enabled : driver :=
  mkDriver (<[0:=true]> (<[1:=true]> (<[2:=false]> ∅))) ∅ [].

(** Channels 0 and 1 enabled, channel 1 switched on after the trigger. *)
Definition late_enabled : driver :=
  mkDriver (<[0:=true]> (<[1:=true]> (<[2:=false]> ∅))) {[1]} [].

End Acquisition.

(** ** Channel index partition: nominal ranges and counting *)

Module PartitionLayout.
Import MachineInt Partition.

(** The ranges as written with exact integers. *)
Definition nominal_analog (c : config) (i : Z) : Prop :=
  0 <= i < m_analogChannelCount c.

Definition nominal_digital (c : config) (i : Z) : Prop :=
  m_digitalChannelBase c <= i <
  m_digitalChannelBase c + 8 * m_analogChannelCount c.

Definition nominal_spectrum (c : config) (i : Z) : Prop :=
  m_spectrumChannelBase c <= i <
  m_spectrumChannelBase c + m_analogChannelCount c.

(** The digital and the spectrum range start after the analog range and do
    not overlap one another; indices may be left over between them. *)
Definition ranges_apart (c : config) : Prop :=
  let n := m_analogChannelCount c in
  n <= m_digitalChannelBase c /\
  n <= m_spectrumChannelBase c /\
  (m_digitalChannelBase c + 8 * n <= m_spectrumChannelBase c \/
   m_spectrumChannelBase c + n <= m_digitalChannelBase c).

Definition at_most_one (c : config) (i : Z) : Prop := count_true c i <= 1.

(** How many of the indices [0 .. k-1] a classifier accepts. *)
Fixpoint count_below (f : Z -> bool) (k : nat) : Z :=
  match k with
  | O => 0
  | S k' => count_below f k' + Z.b2z (f (Z.of_nat k'))
  end.

(** Four analog inputs, one unclassified index (4) before the digital
    lanes 5..36, and the spectrum channels at 40..43. *)
Definition gapped : config := Config 4 5 40.

(** No analog input at all. *)
Definition no_inputs : config := Config 0 7 3.

End PartitionLayout.

(** ** Waveform.h: call sequences *)

Module WaveformCalls.
Import Waveform_h.
Local Open Scope nat_scope.

(** The two size-changing methods of a waveform. *)
Inductive call : Type :=
| CallResize (size : nat)
| CallClear.

(** The size a call leaves behind. *)
Definition requested (c : call) : nat :=
  match c with CallResize size => size | CallClear => 0 end.

Definition apply_call {S : Type} `{DefaultConstructible S}
    (w : Waveform S) (c : call) : Waveform S :=
  match c with
  | CallResize size => Waveform_.Resize w size
  | CallClear => Waveform_.clear w
  end.

(** The calls of [cs] in order, starting from [w]. *)
Definition apply_calls {S : Type} `{DefaultConstructible S}
    (cs : list call) (w : Waveform S) : Waveform S :=
  fold_left apply_call cs w.

(** The sizes of [m_offsets], [m_durations] and [m_samples]. *)
Definition lengths {S : Type} (w : Waveform S) : nat * nat * nat :=
  (length (m_offsets (base w)), length (m_durations (base w)),
   length (m_samples w)).

(** The members of the base class that are not per-sample vectors. *)
Definition metadata (b : WaveformBase)
  : storage Z * Z * Z * spec_float :=
  (m_timescale b, m_startTimestamp b, m_startPicoseconds b,
   m_triggerPhase b).

(** Entry [i] of a vector after [resize(n)]: the old entry where there was
    one, a default constructed one up to [n], nothing from [n] on. *)
Definition resized_entry {T : Type} `{DefaultConstructible T}
    (v : list T) (n i : nat) : option T :=
  if decide (i < n) then Some (default default_construct (v !! i))
  else None.

(** [w = v1; w = v2; ...] on one wrapper. *)
Definition assign_all {T : Type} (w : EmptyConstructorWrapper T)
    (vs : list T) : EmptyConstructorWrapper T :=
  fold_left EmptyConstructorWrapper_.assign vs w.

(** An analog waveform of three samples with their offsets and
    durations. *)
Definition three_samples : AnalogWaveform :=
  mkWaveform
    (mkWaveformBase (Holds 100%Z) 0%Z 0%Z (S754_zero false)
       [Wrapper (Holds 0%Z); Wrapper (Holds 1%Z); Wrapper (Holds 2%Z)]
       [Wrapper (Holds 1%Z); Wrapper (Holds 1%Z); Wrapper (Holds 1%Z)])
    [S754_infinity false; S754_infinity true; S754_nan].

End WaveformCalls.

(** * Theorems *)

(** ** Machine integers and the channel index partition *)

Module MachineIntFacts.
Import MachineInt.

Lemma UINT_MAX1_val : UINT_MAX1 = 4294967296.
Proof. reflexivity. Qed.

Lemma SIZE_MAX1_val : SIZE_MAX1 = 18446744073709551616.
Proof. reflexivity. Qed.

Lemma wrap_uint_small x : is_uint x -> wrap_uint x = x.
Proof. intros H. unfold wrap_uint. apply Z.mod_small. exact H. Qed.

Lemma wrap_size_small x : is_size x -> wrap_size x = x.
Proof. intros H. unfold wrap_size. apply Z.mod_small. exact H. Qed.

Lemma wrap_uint_range x : is_uint (wrap_uint x).
Proof. unfold is_uint, wrap_uint. apply Z.mod_pos_bound. reflexivity. Qed.

Lemma wrap_size_range x : is_size (wrap_size x).
Proof. unfold is_size, wrap_size. apply Z.mod_pos_bound. reflexivity. Qed.

End MachineIntFacts.

Module PartitionFacts.
Import MachineInt MachineIntFacts Partition.

(** Closed side conditions on a concrete configuration. *)
Ltac closed_bounds :=
  unfold well_typed, no_wrap, back_to_back, is_uint, is_size;
  rewrite ?UINT_MAX1_val, ?SIZE_MAX1_val;
  cbn [m_analogChannelCount m_digitalChannelBase m_spectrumChannelBase
       four_channel overlapping wrapping];
  lia.

Lemma digital_end_exact c :
  well_typed c -> no_wrap c ->
  digital_end c = m_digitalChannelBase c + 8 * m_analogChannelCount c.
Proof.
  intros (Hn & Hd & _) (H8 & Hde & _).
  unfold digital_end, is_uint, is_size in *.
  rewrite wrap_uint_small by (unfold is_uint; lia).
  apply wrap_size_small. unfold is_size. lia.
Qed.

Lemma spectrum_end_exact c :
  well_typed c -> no_wrap c ->
  spectrum_end c = m_spectrumChannelBase c + m_analogChannelCount c.
Proof.
  intros (Hn & _ & Hs) (_ & _ & Hse).
  unfold spectrum_end, is_uint, is_size in *.
  apply wrap_size_small. unfold is_size. lia.
Qed.

Lemma IsAnalog_true c i : IsAnalog c i = true <-> i < m_analogChannelCount c.
Proof. unfold IsAnalog. apply Z.ltb_lt. Qed.

Lemma IsDigital_true c i :
  IsDigital c i = true <-> m_digitalChannelBase c <= i < digital_end c.
Proof.
  unfold IsDigital.
  destruct (Z.ltb_spec i (m_digitalChannelBase c));
    [split; [discriminate | lia] |].
  rewrite Z.geb_leb.
  destruct (Z.leb_spec (digital_end c) i); split;
    first [discriminate | lia | reflexivity].
Qed.

Lemma IsSpectrum_true c i :
  IsSpectrum c i = true <-> m_spectrumChannelBase c <= i < spectrum_end c.
Proof.
  unfold IsSpectrum.
  destruct (Z.ltb_spec i (m_spectrumChannelBase c));
    [split; [discriminate | lia] |].
  rewrite Z.geb_leb.
  destruct (Z.leb_spec (spectrum_end c) i); split;
    first [discriminate | lia | reflexivity].
Qed.

(** C2, as stated, fails: with [m_analogChannelCount = 2^29] the product
    [8*m_analogChannelCount] wraps to 0 in [unsigned int], so [IsDigital]
    rejects index [2^29] although it lies in
    [[digitalBase, digitalBase + 8*analogCount)]. *)
Lemma matches_ranges_fails_on_wrap :
  well_typed wrapping /\ is_size 536870912 /\
  IsDigital wrapping 536870912 = false /\
  ~ matches_ranges wrapping 536870912.
Proof.
  split; [|split; [|split]].
  - closed_bounds.
  - closed_bounds.
  - reflexivity.
  - intros (_ & Hd & _).
    assert (IsDigital wrapping 536870912 = true) as E.
    { apply Hd. closed_bounds. }
    discriminate E.
Qed.

(** C2 (amended): when no bound computation wraps around, every classifier
    answers true exactly on its range: analog on [[0, analogCount)], digital
    on [[digitalBase, digitalBase + 8*analogCount)], spectrum on
    [[spectrumBase, spectrumBase + analogCount)]. *)
Theorem classifiers_match_ranges c i :
  well_typed c -> no_wrap c -> is_size i -> matches_ranges c i.
Proof.
  intros Hc Hw Hi. unfold matches_ranges.
  rewrite IsAnalog_true, IsDigital_true, IsSpectrum_true.
  rewrite (digital_end_exact c Hc Hw), (spectrum_end_exact c Hc Hw).
  unfold is_size in Hi. repeat split; lia.
Qed.

Lemma classifiers_match_ranges_witness :
  well_typed four_channel /\ no_wrap four_channel /\ is_size 17 /\
  matches_ranges four_channel 17.
Proof.
  assert (well_typed four_channel) as Hc by closed_bounds.
  assert (no_wrap four_channel) as Hw by closed_bounds.
  assert (is_size 17) as Hi by closed_bounds.
  split; [exact Hc|]. split; [exact Hw|]. split; [exact Hi|].
  exact (classifiers_match_ranges four_channel 17 Hc Hw Hi).
Defined.

Example four_channel_answers :
  map (fun i => (IsAnalog four_channel i, IsDigital four_channel i,
                 IsSpectrum four_channel i)) [0; 3; 4; 35; 36; 39; 40] =
  [(true, false, false); (true, false, false); (false, true, false);
   (false, true, false); (false, false, true); (false, false, true);
   (false, false, false)].
Proof. vm_compute. reflexivity. Qed.

(** C1, as stated, fails: the three integers are free, and with
    [analogCount = 1], [digitalBase = 0], [spectrumBase = 0] index 0 is
    analog, digital and spectrum at once, whatever the total is. *)
Lemma overlapping_not_partitioned :
  well_typed overlapping /\
  count_true overlapping 0 = 3 /\
  ~ (exists total, partitions overlapping total).
Proof.
  split; [|split].
  - closed_bounds.
  - reflexivity.
  - intros [total H].
    assert (is_size 0) as H0 by closed_bounds.
    destruct (H 0 H0) as [Hin Hout].
    destruct (Z_lt_le_dec 0 total) as [Hlt | Hle].
    + specialize (Hin Hlt). vm_compute in Hin. discriminate Hin.
    + specialize (Hout Hle). vm_compute in Hout. discriminate Hout.
Qed.

(** C1 (amended): when the digital and spectrum ranges follow the analog
    range back to back (in either order), [total = 10*analogCount] and no
    bound computation wraps around, exactly one classifier answers true at
    every index below [total], and none at any index from [total] on. *)
Theorem back_to_back_partitions c total :
  well_typed c -> no_wrap c -> back_to_back c total -> partitions c total.
Proof.
  intros Hc Hw (Ht & Hl) i Hi.
  pose proof (IsAnalog_true c i) as Ha.
  pose proof (IsDigital_true c i) as Hd.
  pose proof (IsSpectrum_true c i) as Hs.
  rewrite (digital_end_exact c Hc Hw) in Hd.
  rewrite (spectrum_end_exact c Hc Hw) in Hs.
  unfold exactly_one, none_of, count_true.
  destruct Hc as (Hn & _). unfold is_uint, is_size in *. cbn zeta in *.
  destruct (IsAnalog c i), (IsDigital c i), (IsSpectrum c i); cbn;
    split; intros Hb;
    first [ reflexivity
          | exfalso;
            repeat match goal with
                   | H : true = true <-> _ |- _ =>
                       apply proj1 in H; specialize (H eq_refl)
                   | H : false = true <-> _ |- _ =>
                       apply proj2 in H;
                       assert (~ false = true) by discriminate
                   end;
            destruct Hl as [[? ?] | [? ?]]; lia ].
Qed.

Lemma back_to_back_partitions_witness :
  well_typed four_channel /\ no_wrap four_channel /\
  back_to_back four_channel 40 /\ partitions four_channel 40.
Proof.
  assert (well_typed four_channel) as Hc by closed_bounds.
  assert (no_wrap four_channel) as Hw by closed_bounds.
  assert (back_to_back four_channel 40) as Hl by closed_bounds.
  split; [exact Hc|]. split; [exact Hw|]. split; [exact Hl|].
  exact (back_to_back_partitions four_channel 40 Hc Hw Hl).
Defined.

End PartitionFacts.

(** ** Waveform.h *)

Module Waveform_h_Facts.
Import Waveform_h.
Local Open Scope nat_scope.

Lemma resize_length {T : Type} `{DefaultConstructible T} (v : list T) n :
  length (vector.resize v n) = n.
Proof.
  unfold vector.resize.
  rewrite length_app, length_take, length_replicate. lia.
Qed.

Lemma resize_kept {T : Type} `{DefaultConstructible T} (v : list T) n :
  take (length v) (vector.resize v n) = take n v.
Proof.
  unfold vector.resize.
  destruct (decide (n <= length v)) as [Hle | Hgt].
  - replace (n - length v) with 0 by lia. cbn [replicate].
    rewrite app_nil_r. rewrite take_take. f_equal. lia.
  - rewrite (take_ge v n) by lia. rewrite take_app_length. reflexivity.
Qed.

Lemma resize_added {T : Type} `{DefaultConstructible T} (v : list T) n :
  added v (vector.resize v n) = replicate (n - length v) default_construct.
Proof.
  unfold added, vector.resize.
  destruct (decide (n <= length v)) as [Hle | Hgt].
  - replace (n - length v) with 0 by lia. cbn [replicate].
    rewrite app_nil_r. apply drop_ge. rewrite length_take. lia.
  - rewrite (take_ge v n) by lia. rewrite drop_app_length. reflexivity.
Qed.

(** C9: [Waveform<S>::Resize(n)] leaves [m_offsets], [m_durations] and
    [m_samples] with exactly [n] elements each, [clear()] leaves the three
    empty, and after either call the three sequences have equal length. *)
Theorem Resize_clear_lengths {S : Type} `{DefaultConstructible S}
    (w : Waveform S) (n : nat) :
  (length (m_offsets (base (Waveform_.Resize w n))) = n /\
   length (m_durations (base (Waveform_.Resize w n))) = n /\
   length (m_samples (Waveform_.Resize w n)) = n) /\
  (m_offsets (base (Waveform_.clear w)) = [] /\
   m_durations (base (Waveform_.clear w)) = [] /\
   m_samples (Waveform_.clear w) = []) /\
  same_length (Waveform_.Resize w n) /\
  same_length (Waveform_.clear w).
Proof.
  unfold same_length, Waveform_.Resize, Waveform_.clear, vector.clear.
  cbn [base m_samples m_offsets m_durations].
  rewrite !resize_length. cbn [length]. repeat split; reflexivity.
Qed.

(** C10: a default constructed [WaveformBase] has [m_triggerPhase],
    [m_startTimestamp] and [m_startPicoseconds] equal to zero and an
    indeterminate [m_timescale]; the entries [Resize] adds to [m_offsets]
    and [m_durations] are all indeterminate, in the base class and in
    [Waveform<S>]. *)
Theorem ctor_and_Resize_initialization {S : Type} `{DefaultConstructible S}
    (b : WaveformBase) (w : Waveform S) (n : nat) :
  (m_triggerPhase WaveformBase_.ctor = S754_zero false /\
   m_startTimestamp WaveformBase_.ctor = 0%Z /\
   m_startPicoseconds WaveformBase_.ctor = 0%Z /\
   m_timescale WaveformBase_.ctor = Indeterminate) /\
  (added (m_offsets b) (m_offsets (WaveformBase_.Resize b n)) =
     replicate (n - length (m_offsets b)) (Wrapper Indeterminate) /\
   added (m_durations b) (m_durations (WaveformBase_.Resize b n)) =
     replicate (n - length (m_durations b)) (Wrapper Indeterminate)) /\
  (added (m_offsets (base w)) (m_offsets (base (Waveform_.Resize w n))) =
     replicate (n - length (m_offsets (base w))) (Wrapper Indeterminate) /\
   added (m_durations (base w)) (m_durations (base (Waveform_.Resize w n))) =
     replicate (n - length (m_durations (base w))) (Wrapper Indeterminate)).
Proof.
  unfold WaveformBase_.Resize, Waveform_.Resize.
  cbn [base m_offsets m_durations m_triggerPhase m_startTimestamp
       m_startPicoseconds m_timescale WaveformBase_.ctor].
  rewrite !resize_added. repeat split; reflexivity.
Qed.

Example Resize_grows_then_shrinks :
  m_offsets (base (Waveform_.Resize (S := spec_float) Waveform_.ctor 2)) =
    [Wrapper Indeterminate; Wrapper Indeterminate] /\
  m_samples (Waveform_.Resize (S := spec_float) Waveform_.ctor 2) =
    [S754_zero false; S754_zero false] /\
  m_samples (Waveform_.Resize
               (mkWaveform WaveformBase_.ctor
                  [S754_infinity false; S754_infinity true; S754_nan]) 1) =
    [S754_infinity false].
Proof. repeat split. Qed.

End Waveform_h_Facts.

(** ** Configuration cache *)

Module ConfigCacheFacts.
Import ConfigCache.

Lemma cached_with_map {V : Type} (p : property V) m c :
  cached p (with_map p m c) = m.
Proof. destruct p; reflexivity. Qed.

Lemma cached_store {V : Type} (p : property V) i v c :
  cached p (store p i v c) !! i = Some v.
Proof. unfold store. rewrite cached_with_map. apply lookup_insert_eq. Qed.

(** A write to one channel leaves the entries of the others alone. *)
Lemma cached_store_ne {V : Type} (p : property V) i j v c :
  i <> j -> cached p (store p i v c) !! j = cached p c !! j.
Proof.
  intros H. unfold store. rewrite cached_with_map.
  apply lookup_insert_ne. exact H.
Qed.

Lemma setting_configure {V : Type} (p : property V) i v d :
  setting p (configure p i v d) i = v.
Proof.
  unfold configure. destruct p; cbn; destruct (decide (i = i)); congruence.
Qed.

Lemma cached_empty {V : Type} (p : property V) i :
  cached p empty_cache !! i = None.
Proof. destruct p; cbn; apply lookup_empty. Qed.

Lemma get_hit {V : Type} (p : property V) i v s :
  cached p (config_cache s) !! i = Some v -> get p i s = (v, s).
Proof. intros H. unfold get. rewrite H. reflexivity. Qed.

(** A miss costs exactly one round-trip and fills the entry. *)
Lemma get_miss {V : Type} (p : property V) i s :
  cached p (config_cache s) !! i = None ->
  fst (get p i s) = setting p (device s) i /\
  round_trips (snd (get p i s)) = S (round_trips s) /\
  cached p (config_cache (snd (get p i s))) !! i =
    Some (setting p (device s) i).
Proof.
  intros H. unfold get. rewrite H. cbn.
  repeat split. apply cached_store.
Qed.

(** After a flush every read goes to the instrument. *)
Lemma get_after_flush {V : Type} (p : property V) i s :
  round_trips (snd (get p i (FlushConfigCache s))) = S (round_trips s).
Proof.
  destruct (get_miss p i (FlushConfigCache s)) as (_ & H & _).
  - apply cached_empty.
  - exact H.
Qed.

(** C4: [set(k, v)] immediately followed by [get(k)] returns [v], leaves
    the driver as the write left it, and so makes no round-trip to the
    instrument. *)
Theorem get_after_set {V : Type} (p : property V) (i : Z) (v : V)
    (s : driver) :
  get p i (set p i v s) = (v, set p i v s) /\
  round_trips (snd (get p i (set p i v s))) = round_trips s.
Proof.
  assert (get p i (set p i v s) = (v, set p i v s)) as E.
  { apply get_hit. cbn. apply cached_store. }
  rewrite E. split; reflexivity.
Qed.

Example get_after_set_run :
  fst (GetChannelOffset 3 0 (SetChannelOffset 3 0 (S754_infinity true)
                               quiet_driver)) = S754_infinity true /\
  round_trips (snd (GetChannelOffset 3 0
                      (SetChannelOffset 3 0 (S754_infinity true)
                         quiet_driver))) = 0%nat /\
  round_trips (snd (GetChannelOffset 3 0 quiet_driver)) = 1%nat /\
  round_trips (snd (GetChannelVoltageRange 3 0
                      (SetChannelOffset 3 0 (S754_infinity true)
                         quiet_driver))) = 1%nat.
Proof. repeat split; vm_compute; reflexivity. Qed.

End ConfigCacheFacts.

(** ** Enable-state dirty tracking *)

Module EnableStateFacts.
Import EnableState.

Lemma dirty_iff chan s :
  IsEnableStateDirty chan s = true <-> chan ∈ m_channelEnableStatusDirty s.
Proof. unfold IsEnableStateDirty. apply bool_decide_eq_true. Qed.

(** A call other than the flush never removes a channel from the set. *)
Lemma step_keeps_dirty chan s c :
  is_flush c = false ->
  IsEnableStateDirty chan s = true ->
  IsEnableStateDirty chan (step s c) = true.
Proof.
  rewrite !dirty_iff. intros Hc Hs.
  destruct c; cbn in *; try discriminate; set_solver.
Qed.

Lemma run_keeps_dirty chan cs : forall s,
  forallb (fun c => negb (is_flush c)) cs = true ->
  IsEnableStateDirty chan s = true ->
  IsEnableStateDirty chan (run cs s) = true.
Proof.
  induction cs as [|c cs IH]; intros s Hcs Hs; [exact Hs|].
  cbn in Hcs. apply andb_prop in Hcs as [Hc Hcs].
  cbn. apply IH; [exact Hcs|].
  apply step_keeps_dirty; [|exact Hs].
  destruct (is_flush c); [discriminate Hc | reflexivity].
Qed.

(** C6: after [EnableChannel(i)] or [DisableChannel(i)], and after any
    further calls none of which is [FlushChannelEnableStates],
    [IsEnableStateDirty(i)] is true; right after
    [FlushChannelEnableStates], in whatever state it was called,
    [IsEnableStateDirty(c)] is false for every channel [c]. *)
Theorem dirty_until_flush (i : Z) (cs : list call) (s s' : driver) :
  forallb (fun c => negb (is_flush c)) cs = true ->
  IsEnableStateDirty i (run cs (EnableChannel i s)) = true /\
  IsEnableStateDirty i (run cs (DisableChannel i s)) = true /\
  (forall c, IsEnableStateDirty c (FlushChannelEnableStates s') = false).
Proof.
  intros Hcs. split; [|split].
  - apply run_keeps_dirty; [exact Hcs|]. apply dirty_iff. cbn. set_solver.
  - apply run_keeps_dirty; [exact Hcs|]. apply dirty_iff. cbn. set_solver.
  - intros c. unfold IsEnableStateDirty. apply bool_decide_eq_false.
    cbn. set_solver.
Qed.

Lemma dirty_until_flush_witness :
  forallb (fun c => negb (is_flush c)) later_calls = true /\
  IsEnableStateDirty 2 (run later_calls (EnableChannel 2 initial)) = true /\
  IsEnableStateDirty 2 (run later_calls (DisableChannel 2 initial)) = true /\
  IsEnableStateDirty 2
    (FlushChannelEnableStates (run later_calls (EnableChannel 2 initial)))
    = false.
Proof.
  assert (forallb (fun c => negb (is_flush c)) later_calls = true) as Hcs
    by reflexivity.
  destruct (dirty_until_flush 2 later_calls initial
              (run later_calls (EnableChannel 2 initial)) Hcs)
    as (He & Hd & Hf).
  split; [exact Hcs|]. split; [exact He|]. split; [exact Hd | exact (Hf 2)].
Defined.

(** The flush in the middle of a run does clear an earlier mark. *)
Example flush_clears_mark :
  IsEnableStateDirty 2
    (run [CallEnableChannel 5; CallFlushChannelEnableStates;
          CallEnableChannel 7] (EnableChannel 2 initial)) = false /\
  IsEnableStateDirty 7
    (run [CallEnableChannel 5; CallFlushChannelEnableStates;
          CallEnableChannel 7] (EnableChannel 2 initial)) = true.
Proof. split; vm_compute; reflexivity. Qed.

End EnableStateFacts.

(** ** Binary waveform header *)

Module PreambleFacts.
Import Preamble.

(** The two names of each union denote the same object. *)
Lemma union_members_alias p :
  xincrement p = hzbase p /\ xzero p = hzoff p.
Proof. split; reflexivity. Qed.

End PreambleFacts.

(** ** Acquisition *)

Module AcquisitionFacts.
Import Waveform_h Acquisition.

Section OneEvent.

(** What the instrument answers, channel by channel, for the trigger event
    being read, and what re-verifying a dirty channel finds. *)
Variable link : Z -> reply.
Variable available : Z -> bool.

Lemma link_cases i : fails link i \/ exists w, link i = inr w.
Proof. unfold fails. destruct (link i) as [e | w]; eauto. Qed.





(** Right after a flush the event is made of all enabled channels. *)
Lemma in_event_clean (s : driver) i :
  m_channelEnableStatusDirty s = ∅ ->
  (in_event available s i <-> m_channelsEnabled s !! i = Some true).
Proof.
  intros Hd. unfold in_event, IsEnableStateDirty. rewrite Hd. split.
  - intros [H _]. exact H.
  - intros H. split; [exact H|]. left. apply bool_decide_eq_false.
    apply not_elem_of_empty.
Qed.




End OneEvent.

(** Channel 1 fails to decode: nothing of the event is committed, although
    channel 0 could be read. *)
Example AcquireData_skewed :
  skewed_event 0 = inr (wave 100) /\
  AcquireData skewed_event never both_enabled = (false, both_enabled).
Proof. split; vm_compute; reflexivity. Qed.

(** Channel 1 was switched on after the trigger and is found unavailable:
    it is not part of the event, and channel 0 is committed alone. *)
Example AcquireData_late :
  fst (AcquireData skewed_event never late_enabled) = true /\
  map map_to_list
    (m_pendingWaveforms (snd (AcquireData skewed_event never late_enabled)))
  = [[(0, wave 100)]].
Proof. split; vm_compute; reflexivity. Qed.

End AcquisitionFacts.

(** ** Channel index partition: nominal ranges and counting *)

Module PartitionLayoutFacts.
Import MachineInt MachineIntFacts Partition PartitionFacts PartitionLayout.

Ltac layout_bounds :=
  unfold well_typed, no_wrap, ranges_apart, is_uint, is_size;
  rewrite ?UINT_MAX1_val, ?SIZE_MAX1_val;
  cbn [m_analogChannelCount m_digitalChannelBase m_spectrumChannelBase
       four_channel gapped no_inputs];
  lia.

Lemma wrap_uint_le x : 0 <= x -> wrap_uint x <= x.
Proof. intros H. unfold wrap_uint. apply Z.mod_le; [exact H | reflexivity]. Qed.

Lemma wrap_size_le x : 0 <= x -> wrap_size x <= x.
Proof. intros H. unfold wrap_size. apply Z.mod_le; [exact H | reflexivity]. Qed.

(** Wrap-around can only pull an upper bound down. *)
Lemma digital_end_le c :
  well_typed c ->
  digital_end c <= m_digitalChannelBase c + 8 * m_analogChannelCount c.
Proof.
  intros (Hn & Hd & _). unfold digital_end, is_uint, is_size in *.
  pose proof (wrap_uint_le (8 * m_analogChannelCount c)) as H1.
  pose proof (wrap_uint_range (8 * m_analogChannelCount c)) as H2.
  unfold is_uint in H2.
  pose proof (wrap_size_le (m_digitalChannelBase c +
                            wrap_uint (8 * m_analogChannelCount c))) as H3.
  lia.
Qed.

Lemma spectrum_end_le c :
  well_typed c ->
  spectrum_end c <= m_spectrumChannelBase c + m_analogChannelCount c.
Proof.
  intros (Hn & _ & Hs). unfold spectrum_end, is_uint, is_size in *.
  apply wrap_size_le. lia.
Qed.

(** X1: whatever the three integers are, a classifier never accepts an
    index outside its nominal range; wrap-around in the bound computations
    can only make a range smaller. *)
Theorem classifiers_within_nominal c i :
  well_typed c -> is_size i ->
  (IsAnalog c i = true -> nominal_analog c i) /\
  (IsDigital c i = true -> nominal_digital c i) /\
  (IsSpectrum c i = true -> nominal_spectrum c i).
Proof.
  intros Hc Hi.
  pose proof (digital_end_le c Hc) as Hd.
  pose proof (spectrum_end_le c Hc) as Hs.
  unfold nominal_analog, nominal_digital, nominal_spectrum, is_size in *.
  rewrite IsAnalog_true, IsDigital_true, IsSpectrum_true.
  repeat split; lia.
Qed.

Lemma classifiers_within_nominal_witness :
  well_typed wrapping /\ is_size 536870912 /\
  (IsAnalog wrapping 536870912 = true ->
   nominal_analog wrapping 536870912) /\
  (IsDigital wrapping 536870912 = true ->
   nominal_digital wrapping 536870912) /\
  (IsSpectrum wrapping 536870912 = true ->
   nominal_spectrum wrapping 536870912).
Proof.
  assert (well_typed wrapping) as Hc by closed_bounds.
  assert (is_size 536870912) as Hi by closed_bounds.
  split; [exact Hc|]. split; [exact Hi|].
  exact (classifiers_within_nominal wrapping 536870912 Hc Hi).
Defined.

(** X2: when the nominal digital and spectrum ranges start at or after
    [analogCount] and do not overlap one another, no index is accepted by
    two classifiers, with or without wrap-around and with or without
    unclassified indices between the ranges. *)
Theorem ranges_apart_exclusive c i :
  well_typed c -> ranges_apart c -> is_size i -> at_most_one c i.
Proof.
  intros Hc (Hd & Hs & Hds) Hi.
  pose proof (digital_end_le c Hc) as Hde.
  pose proof (spectrum_end_le c Hc) as Hse.
  pose proof (IsAnalog_true c i) as Ha.
  pose proof (IsDigital_true c i) as Hdi.
  pose proof (IsSpectrum_true c i) as Hsi.
  unfold at_most_one, count_true. cbn zeta in *.
  destruct (IsAnalog c i), (IsDigital c i), (IsSpectrum c i); cbn;
    first [ lia
          | exfalso;
            repeat match goal with
                   | H : true = true <-> _ |- _ =>
                       apply proj1 in H; specialize (H eq_refl)
                   | H : false = true <-> _ |- _ => clear H
                   end;
            lia ].
Qed.

Lemma ranges_apart_exclusive_witness :
  well_typed gapped /\ ranges_apart gapped /\ is_size 4 /\
  at_most_one gapped 4.
Proof.
  assert (well_typed gapped) as Hc by layout_bounds.
  assert (ranges_apart gapped) as Hr by layout_bounds.
  assert (is_size 4) as Hi by layout_bounds.
  split; [exact Hc|]. split; [exact Hr|]. split; [exact Hi|].
  exact (ranges_apart_exclusive gapped 4 Hc Hr Hi).
Defined.

(** In [gapped], index 4 belongs to no range and index 5 is digital. *)
Example gapped_answers :
  count_true gapped 4 = 0 /\ count_true gapped 5 = 1 /\
  IsDigital gapped 36 = true /\ IsDigital gapped 37 = false.
Proof. repeat split; vm_compute; reflexivity. Qed.

(** X3: without wrap-around, the digital indices are exactly the indices
    [digitalBase + 8*k + lane] with [k] an analog index and [lane] one of
    0..7: eight lanes for every analog channel. *)
Theorem digital_lanes c i :
  well_typed c -> no_wrap c -> is_size i ->
  (IsDigital c i = true <->
   exists k lane, 0 <= k /\ IsAnalog c k = true /\ 0 <= lane < 8 /\
                  i = m_digitalChannelBase c + 8 * k + lane).
Proof.
  intros Hc Hw Hi. rewrite IsDigital_true, (digital_end_exact c Hc Hw).
  split.
  - intros [Hlo Hhi].
    exists ((i - m_digitalChannelBase c) / 8),
           ((i - m_digitalChannelBase c) mod 8).
    pose proof (Z.div_mod (i - m_digitalChannelBase c) 8) as Hdm.
    pose proof (Z.mod_pos_bound (i - m_digitalChannelBase c) 8) as Hm.
    assert (0 <= (i - m_digitalChannelBase c) / 8) as Hk
      by (apply Z.div_pos; lia).
    rewrite IsAnalog_true. repeat split; lia.
  - intros (k & lane & Hk & Ha & Hl & ->).
    apply IsAnalog_true in Ha. lia.
Qed.

Lemma digital_lanes_witness :
  well_typed four_channel /\ no_wrap four_channel /\ is_size 21 /\
  (IsDigital four_channel 21 = true <->
   exists k lane, 0 <= k /\ IsAnalog four_channel k = true /\
                  0 <= lane < 8 /\
                  21 = m_digitalChannelBase four_channel + 8 * k + lane).
Proof.
  assert (well_typed four_channel) as Hc by closed_bounds.
  assert (no_wrap four_channel) as Hw by closed_bounds.
  assert (is_size 21) as Hi by closed_bounds.
  split; [exact Hc|]. split; [exact Hw|]. split; [exact Hi|].
  exact (digital_lanes four_channel 21 Hc Hw Hi).
Defined.

(** X4: without wrap-around, the spectrum indices are exactly the analog
    indices shifted by [spectrumBase]: one spectrum channel for every
    analog channel. *)
Theorem spectrum_shift c i :
  well_typed c -> no_wrap c -> is_size i ->
  (IsSpectrum c i = true <->
   exists k, 0 <= k /\ IsAnalog c k = true /\
             i = m_spectrumChannelBase c + k).
Proof.
  intros Hc Hw Hi. rewrite IsSpectrum_true, (spectrum_end_exact c Hc Hw).
  split.
  - intros [Hlo Hhi]. exists (i - m_spectrumChannelBase c).
    rewrite IsAnalog_true. repeat split; lia.
  - intros (k & Hk & Ha & ->). apply IsAnalog_true in Ha. lia.
Qed.

Lemma spectrum_shift_witness :
  well_typed four_channel /\ no_wrap four_channel /\ is_size 38 /\
  (IsSpectrum four_channel 38 = true <->
   exists k, 0 <= k /\ IsAnalog four_channel k = true /\
             38 = m_spectrumChannelBase four_channel + k).
Proof.
  assert (well_typed four_channel) as Hc by closed_bounds.
  assert (no_wrap four_channel) as Hw by closed_bounds.
  assert (is_size 38) as Hi by closed_bounds.
  split; [exact Hc|]. split; [exact Hw|]. split; [exact Hi|].
  exact (spectrum_shift four_channel 38 Hc Hw Hi).
Defined.

(** X5: with no analog channel, the three classifiers reject every index,
    wherever the two bases are. *)
Theorem no_analog_no_channel c i :
  well_typed c -> m_analogChannelCount c = 0 -> is_size i ->
  IsAnalog c i = false /\ IsDigital c i = false /\ IsSpectrum c i = false.
Proof.
  intros Hc H0 Hi.
  pose proof (digital_end_le c Hc) as Hde.
  pose proof (spectrum_end_le c Hc) as Hse.
  pose proof (IsAnalog_true c i) as Ha.
  pose proof (IsDigital_true c i) as Hd.
  pose proof (IsSpectrum_true c i) as Hs.
  unfold is_size in Hi.
  destruct (IsAnalog c i), (IsDigital c i), (IsSpectrum c i);
    repeat split; try reflexivity; exfalso;
    repeat match goal with
           | H : true = true <-> _ |- _ =>
               apply proj1 in H; specialize (H eq_refl)
           | H : false = true <-> _ |- _ => clear H
           end;
    lia.
Qed.

Lemma no_analog_no_channel_witness :
  well_typed no_inputs /\ m_analogChannelCount no_inputs = 0 /\
  is_size 7 /\
  IsAnalog no_inputs 7 = false /\ IsDigital no_inputs 7 = false /\
  IsSpectrum no_inputs 7 = false.
Proof.
  assert (well_typed no_inputs) as Hc by layout_bounds.
  assert (is_size 7) as Hi by layout_bounds.
  split; [exact Hc|]. split; [reflexivity|]. split; [exact Hi|].
  exact (no_analog_no_channel no_inputs 7 Hc eq_refl Hi).
Defined.

(** A classifier that accepts exactly [[a, b)] accepts
    [max 0 (min b k - a)] of the indices below [k]. *)
Lemma count_below_interval (f : Z -> bool) a b :
  0 <= a -> a <= b ->
  (forall i, 0 <= i -> (f i = true <-> a <= i < b)) ->
  forall k, count_below f k = Z.max 0 (Z.min b (Z.of_nat k) - a).
Proof.
  intros Ha Hab Hf. induction k as [|k IH]; cbn [count_below]; [lia|].
  rewrite IH. pose proof (Hf (Z.of_nat k) ltac:(lia)) as Hk.
  destruct (f (Z.of_nat k)); cbn [Z.b2z].
  - assert (a <= Z.of_nat k < b) by (apply Hk; reflexivity). lia.
  - assert (~ (a <= Z.of_nat k < b)) by (intros H; apply Hk in H; discriminate).
    lia.
Qed.

(** X6: without wrap-around, among the indices below any [total] that
    contains the three ranges, [analogCount] are analog, [8*analogCount]
    are digital and [analogCount] are spectrum. *)
Theorem channel_counts c (total : nat) :
  well_typed c -> no_wrap c ->
  m_analogChannelCount c <= Z.of_nat total ->
  m_digitalChannelBase c + 8 * m_analogChannelCount c <= Z.of_nat total ->
  m_spectrumChannelBase c + m_analogChannelCount c <= Z.of_nat total ->
  count_below (IsAnalog c) total = m_analogChannelCount c /\
  count_below (IsDigital c) total = 8 * m_analogChannelCount c /\
  count_below (IsSpectrum c) total = m_analogChannelCount c.
Proof.
  intros Hc Hw Hta Htd Hts.
  pose proof Hc as (Hn & Hd & Hs). unfold is_uint, is_size in *.
  split; [|split].
  - rewrite (count_below_interval (IsAnalog c) 0 (m_analogChannelCount c));
      [lia | lia | lia |].
    intros i Hi. rewrite IsAnalog_true. lia.
  - rewrite (count_below_interval (IsDigital c) (m_digitalChannelBase c)
               (m_digitalChannelBase c + 8 * m_analogChannelCount c));
      [lia | lia | lia |].
    intros i Hi. rewrite IsDigital_true, (digital_end_exact c Hc Hw). lia.
  - rewrite (count_below_interval (IsSpectrum c) (m_spectrumChannelBase c)
               (m_spectrumChannelBase c + m_analogChannelCount c));
      [lia | lia | lia |].
    intros i Hi. rewrite IsSpectrum_true, (spectrum_end_exact c Hc Hw). lia.
Qed.

Lemma channel_counts_witness :
  well_typed gapped /\ no_wrap gapped /\
  m_analogChannelCount gapped <= 50 /\
  m_digitalChannelBase gapped + 8 * m_analogChannelCount gapped <= 50 /\
  m_spectrumChannelBase gapped + m_analogChannelCount gapped <= 50 /\
  count_below (IsAnalog gapped) 50 = 4 /\
  count_below (IsDigital gapped) 50 = 32 /\
  count_below (IsSpectrum gapped) 50 = 4.
Proof.
  assert (well_typed gapped) as Hc by layout_bounds.
  assert (no_wrap gapped) as Hw by layout_bounds.
  assert (m_analogChannelCount gapped <= 50) as Ha by (cbn; lia).
  assert (m_digitalChannelBase gapped + 8 * m_analogChannelCount gapped
          <= 50) as Hd by (cbn; lia).
  assert (m_spectrumChannelBase gapped + m_analogChannelCount gapped
          <= 50) as Hs by (cbn; lia).
  split; [exact Hc|]. split; [exact Hw|]. split; [exact Ha|].
  split; [exact Hd|]. split; [exact Hs|].
  exact (channel_counts gapped 50 Hc Hw Ha Hd Hs).
Defined.

(** The number of accepting classifiers at [j], as three 0/1 indicators of
    the nominal ranges. *)
Lemma count_true_indicators c j :
  well_typed c -> no_wrap c -> is_size j ->
  exists a d s,
    count_true c j = a + d + s /\
    (a = 1 /\ j < m_analogChannelCount c \/
     a = 0 /\ m_analogChannelCount c <= j) /\
    (d = 1 /\ m_digitalChannelBase c <= j <
              m_digitalChannelBase c + 8 * m_analogChannelCount c \/
     d = 0 /\ (j < m_digitalChannelBase c \/
               m_digitalChannelBase c + 8 * m_analogChannelCount c <= j)) /\
    (s = 1 /\ m_spectrumChannelBase c <= j <
              m_spectrumChannelBase c + m_analogChannelCount c \/
     s = 0 /\ (j < m_spectrumChannelBase c \/
               m_spectrumChannelBase c + m_analogChannelCount c <= j)).
Proof.
  intros Hc Hw Hj.
  pose proof (IsAnalog_true c j) as Ha.
  pose proof (IsDigital_true c j) as Hd.
  pose proof (IsSpectrum_true c j) as Hs.
  rewrite (digital_end_exact c Hc Hw) in Hd.
  rewrite (spectrum_end_exact c Hc Hw) in Hs.
  exists (Z.b2z (IsAnalog c j)), (Z.b2z (IsDigital c j)),
         (Z.b2z (IsSpectrum c j)).
  split; [reflexivity|].
  split; [|split].
  - destruct (IsAnalog c j); cbn [Z.b2z].
    + left. split; [reflexivity|]. apply Ha. reflexivity.
    + right. split; [reflexivity|].
      destruct (Z_lt_le_dec j (m_analogChannelCount c)) as [H | H];
        [apply Ha in H; discriminate H | exact H].
  - destruct (IsDigital c j); cbn [Z.b2z].
    + left. split; [reflexivity|]. apply Hd. reflexivity.
    + right. split; [reflexivity|].
      destruct (Z_lt_le_dec j (m_digitalChannelBase c)) as [H | H];
        [left; exact H|].
      destruct (Z_lt_le_dec j (m_digitalChannelBase c +
                               8 * m_analogChannelCount c)) as [H' | H'];
        [|right; exact H'].
      assert (false = true) as E by (apply Hd; lia). discriminate E.
  - destruct (IsSpectrum c j); cbn [Z.b2z].
    + left. split; [reflexivity|]. apply Hs. reflexivity.
    + right. split; [reflexivity|].
      destruct (Z_lt_le_dec j (m_spectrumChannelBase c)) as [H | H];
        [left; exact H|].
      destruct (Z_lt_le_dec j (m_spectrumChannelBase c +
                               m_analogChannelCount c)) as [H' | H'];
        [|right; exact H'].
      assert (false = true) as E by (apply Hs; lia). discriminate E.
Qed.

(** What [partitions] says at one index, in arithmetic. *)
Lemma partitions_at c total j :
  well_typed c -> no_wrap c -> partitions c total -> is_size j ->
  exists a d s,
    (j < total /\ a + d + s = 1 \/ total <= j /\ a + d + s = 0) /\
    (a = 1 /\ j < m_analogChannelCount c \/
     a = 0 /\ m_analogChannelCount c <= j) /\
    (d = 1 /\ m_digitalChannelBase c <= j <
              m_digitalChannelBase c + 8 * m_analogChannelCount c \/
     d = 0 /\ (j < m_digitalChannelBase c \/
               m_digitalChannelBase c + 8 * m_analogChannelCount c <= j)) /\
    (s = 1 /\ m_spectrumChannelBase c <= j <
              m_spectrumChannelBase c + m_analogChannelCount c \/
     s = 0 /\ (j < m_spectrumChannelBase c \/
               m_spectrumChannelBase c + m_analogChannelCount c <= j)).
Proof.
  intros Hc Hw Hp Hj.
  destruct (count_true_indicators c j Hc Hw Hj) as (a & d & s & E & H).
  exists a, d, s. split; [|exact H].
  destruct (Hp j Hj) as [Hin Hout]. unfold exactly_one, none_of in *.
  destruct (Z_lt_le_dec j total) as [Hlt | Hle].
  - left. split; [exact Hlt|]. rewrite <- E. apply Hin. exact Hlt.
  - right. split; [exact Hle|]. rewrite <- E. apply Hout. exact Hle.
Qed.

(** The same without indicators: below [total] some range holds [j],
    from [total] on none does, and no two ranges hold [j]. *)
Lemma partitions_arith c total j :
  well_typed c -> no_wrap c -> partitions c total -> is_size j ->
  (j < total ->
   nominal_analog c j \/ nominal_digital c j \/ nominal_spectrum c j) /\
  (total <= j ->
   ~ nominal_analog c j /\ ~ nominal_digital c j /\ ~ nominal_spectrum c j)
  /\
  ~ (nominal_analog c j /\ nominal_digital c j) /\
  ~ (nominal_analog c j /\ nominal_spectrum c j) /\
  ~ (nominal_digital c j /\ nominal_spectrum c j).
Proof.
  intros Hc Hw Hp Hj.
  destruct (partitions_at c total j Hc Hw Hp Hj)
    as (a & d & s & P & A & D & S).
  unfold nominal_analog, nominal_digital, nominal_spectrum, is_size in *.
  repeat split; lia.
Qed.

(** X14: the back-to-back layouts are the only ones that work. Without
    wrap-around and with at least one analog channel, if exactly one
    classifier accepts every index below [total] and none accepts an index
    from [total] on, then [total = 10*analogCount] and the digital and
    spectrum ranges follow the analog range back to back, in one of the
    two orders. *)
Theorem partitions_only_back_to_back c total :
  well_typed c -> no_wrap c -> 0 < m_analogChannelCount c ->
  partitions c total -> back_to_back c total.
Proof.
  intros Hc Hw Hn Hp.
  pose proof Hc as (Hcn & Hcd & Hcs). pose proof Hw as (Hw8 & Hwd & Hws).
  assert (forall j, 0 <= j < 18446744073709551616 -> is_size j) as Hsz.
  { intros j Hj. unfold is_size. rewrite SIZE_MAX1_val. exact Hj. }
  unfold is_uint, is_size in Hcn, Hcd, Hcs.
  pose proof UINT_MAX1_val as Eu. pose proof SIZE_MAX1_val as Es.
  set (n := m_analogChannelCount c) in *.
  set (db := m_digitalChannelBase c) in *.
  set (sb := m_spectrumChannelBase c) in *.
  pose proof (fun j Hj => partitions_arith c total j Hc Hw Hp (Hsz j Hj))
    as Hat.
  unfold nominal_analog, nominal_digital, nominal_spectrum in Hat.
  fold n db sb in Hat.
  (* the first digital and the first spectrum index *)
  assert (db < total /\ n <= db /\ (db < sb \/ sb + n <= db)) as T1.
  { destruct (Hat db) as (Hin & Hout & HAD & HAS & HDS); [lia|].
    clear Hat. lia. }
  assert (sb < total /\ n <= sb /\ (sb < db \/ db + 8 * n <= sb)) as T2.
  { destruct (Hat sb) as (Hin & Hout & HAD & HAS & HDS); [lia|].
    clear Hat. lia. }
  (* the index after the last analog one *)
  assert (db = n \/ sb = n) as T3.
  { destruct (Hat n) as (Hin & Hout & HAD & HAS & HDS); [lia|].
    clear Hat. lia. }
  assert (db + 8 * n <= sb \/ sb + n <= db) as [HA | HB] by lia.
  - (* analog, digital, spectrum *)
    assert (db = n) as Edb by lia.
    assert (sb = 9 * n) as Esb.
    { destruct (Hat (db + 8 * n)) as (Hin & Hout & HAD & HAS & HDS); [lia|].
      clear Hat. lia. }
    assert (total <= 10 * n) as Hle.
    { destruct (Hat (sb + n)) as (Hin & Hout & HAD & HAS & HDS); [lia|].
      clear Hat. lia. }
    assert (10 * n - 1 < total) as Hge.
    { destruct (Hat (sb + n - 1)) as (Hin & Hout & HAD & HAS & HDS); [lia|].
      clear Hat. lia. }
    unfold back_to_back. cbn zeta. fold n db sb. lia.
  - (* analog, spectrum, digital *)
    assert (sb = n) as Esb by lia.
    assert (db = 2 * n) as Edb.
    { destruct (Hat (sb + n)) as (Hin & Hout & HAD & HAS & HDS); [lia|].
      clear Hat. lia. }
    assert (total <= 10 * n) as Hle.
    { destruct (Hat (db + 8 * n)) as (Hin & Hout & HAD & HAS & HDS); [lia|].
      clear Hat. lia. }
    assert (10 * n - 1 < total) as Hge.
    { destruct (Hat (db + 8 * n - 1)) as (Hin & Hout & HAD & HAS & HDS);
        [lia|].
      clear Hat. lia. }
    unfold back_to_back. cbn zeta. fold n db sb. lia.
Qed.

Lemma four_channel_is_partitioned : partitions four_channel 40.
Proof.
  assert (well_typed four_channel) as Hc by closed_bounds.
  assert (no_wrap four_channel) as Hw by closed_bounds.
  intros i Hi.
  destruct (count_true_indicators four_channel i Hc Hw Hi)
    as (a & d & s & E & A & D & S).
  unfold exactly_one, none_of. rewrite E. clear E.
  cbn [m_analogChannelCount m_digitalChannelBase m_spectrumChannelBase
       four_channel] in A, D, S.
  unfold is_size in Hi. split; intros Hb; lia.
Qed.

Lemma partitions_only_back_to_back_witness :
  well_typed four_channel /\ no_wrap four_channel /\
  0 < m_analogChannelCount four_channel /\
  partitions four_channel 40 /\ back_to_back four_channel 40.
Proof.
  assert (well_typed four_channel) as Hc by closed_bounds.
  assert (no_wrap four_channel) as Hw by closed_bounds.
  assert (0 < m_analogChannelCount four_channel) as Hn by (cbn; lia).
  pose proof four_channel_is_partitioned as Hp.
  split; [exact Hc|]. split; [exact Hw|]. split; [exact Hn|].
  split; [exact Hp|].
  exact (partitions_only_back_to_back four_channel 40 Hc Hw Hn Hp).
Defined.

(** X15: wrap-around always costs channels. With at least one analog
    channel, whenever one of the three bound computations wraps around,
    some index of the nominal digital range is rejected by [IsDigital], or
    some index of the nominal spectrum range is rejected by
    [IsSpectrum]. *)
Theorem wrap_loses_channels c :
  well_typed c -> 0 < m_analogChannelCount c -> ~ no_wrap c ->
  exists i, is_size i /\
    ((nominal_digital c i /\ IsDigital c i = false) \/
     (nominal_spectrum c i /\ IsSpectrum c i = false)).
Proof.
  intros Hc Hn Hw. pose proof Hc as (Hcn & Hcd & Hcs).
  pose proof (wrap_size_range
                (m_digitalChannelBase c +
                 wrap_uint (8 * m_analogChannelCount c))) as Hde.
  fold (digital_end c) in Hde.
  assert (forall j, IsDigital c j = false <->
                    ~ (m_digitalChannelBase c <= j < digital_end c)) as Hd.
  { intros j. rewrite <- IsDigital_true. destruct (IsDigital c j); split.
    - discriminate.
    - intros H. exfalso. apply H. reflexivity.
    - intros _ E. discriminate E.
    - intros _. reflexivity. }
  assert (forall j, IsSpectrum c j = false <->
                    ~ (m_spectrumChannelBase c <= j < spectrum_end c)) as Hs.
  { intros j. rewrite <- IsSpectrum_true. destruct (IsSpectrum c j); split.
    - discriminate.
    - intros H. exfalso. apply H. reflexivity.
    - intros _ E. discriminate E.
    - intros _. reflexivity. }
  unfold nominal_digital, nominal_spectrum.
  destruct (Z_lt_le_dec (m_spectrumChannelBase c + m_analogChannelCount c)
              SIZE_MAX1) as [Hse | Hse].
  - destruct (Z_lt_le_dec (digital_end c) (m_digitalChannelBase c))
      as [Hlt | Hge].
    + (* the digital range is empty: its first nominal index is lost *)
      exists (m_digitalChannelBase c). split; [exact Hcd|]. left.
      split; [lia|]. apply Hd. lia.
    + (* the digital range is cut short: its first missing index is lost *)
      exists (digital_end c). split; [exact Hde|]. left.
      split; [|apply Hd; lia].
      split; [exact Hge|].
      assert (digital_end c <>
              m_digitalChannelBase c + 8 * m_analogChannelCount c) as Hne.
      { intros E. apply Hw. unfold no_wrap. split; [|split; [|exact Hse]].
        - unfold digital_end, wrap_size, wrap_uint, is_uint, is_size in *.
          rewrite UINT_MAX1_val, SIZE_MAX1_val in *.
          Z.div_mod_to_equations. lia.
        - rewrite <- E. apply Hde. }
      pose proof (digital_end_le c Hc). lia.
  - (* the spectrum bound wraps: the first nominal spectrum index is lost *)
    exists (m_spectrumChannelBase c). split; [exact Hcs|]. right.
    split; [lia|]. apply Hs.
    unfold spectrum_end, wrap_size, is_uint, is_size in *.
    rewrite UINT_MAX1_val, SIZE_MAX1_val in *.
    Z.div_mod_to_equations. lia.
Qed.

Lemma wrap_loses_channels_witness :
  well_typed wrapping /\ 0 < m_analogChannelCount wrapping /\
  ~ no_wrap wrapping /\
  exists i, is_size i /\
    ((nominal_digital wrapping i /\ IsDigital wrapping i = false) \/
     (nominal_spectrum wrapping i /\ IsSpectrum wrapping i = false)).
Proof.
  assert (well_typed wrapping) as Hc by closed_bounds.
  assert (0 < m_analogChannelCount wrapping) as Hn by (cbn; lia).
  assert (~ no_wrap wrapping) as Hw.
  { unfold no_wrap. rewrite UINT_MAX1_val. cbn. lia. }
  split; [exact Hc|]. split; [exact Hn|]. split; [exact Hw|].
  exact (wrap_loses_channels wrapping Hc Hn Hw).
Defined.

End PartitionLayoutFacts.

(** ** Waveform.h: entries, composition and call sequences *)

Module WaveformCallsFacts.
Import Waveform_h Waveform_h_Facts WaveformCalls.
Local Open Scope nat_scope.

Section Vectors.
Context {T : Type} `{DefaultConstructible T}.

Lemma lookup_resize (v : list T) n i :
  vector.resize v n !! i = resized_entry v n i.
Proof.
  unfold vector.resize, resized_entry.
  destruct (decide (i < n)) as [Hin | Hin].
  - destruct (decide (i < length v)) as [Hiv | Hiv].
    + rewrite lookup_app_l by (rewrite length_take; lia).
      rewrite lookup_take_lt by lia.
      destruct (lookup_lt_is_Some_2 v i Hiv) as [x ->]. reflexivity.
    + rewrite (take_ge v n) by lia. rewrite lookup_app_r by lia.
      rewrite lookup_replicate_2 by lia.
      rewrite (lookup_ge_None_2 v i) by lia. reflexivity.
  - apply lookup_ge_None_2.
    rewrite length_app, length_take, length_replicate. lia.
Qed.

(** A second resize sees the first one only through what it cut off. *)
Lemma resize_twice (v : list T) n m :
  m <= n \/ length v <= n ->
  vector.resize (vector.resize v n) m = vector.resize v m.
Proof.
  intros Hnm. apply list_eq. intros i.
  rewrite !lookup_resize. unfold resized_entry.
  rewrite lookup_resize. unfold resized_entry.
  destruct (decide (i < m)) as [Him | Him]; [|reflexivity].
  destruct (decide (i < n)) as [Hin | Hin]; [reflexivity|].
  cbn [default from_option id].
  destruct Hnm as [Hmn | Hvn]; [lia|].
  rewrite (lookup_ge_None_2 v i) by lia. reflexivity.
Qed.

End Vectors.

(** X7: [Resize(n)] leaves the scale, timestamp and phase members alone;
    in each of the three vectors entry [i] is afterwards the old entry if
    there was one and [i < n], a default constructed entry if [i < n] and
    there was none, and absent if [i >= n]. The base class method does the
    same to its two vectors. *)
Theorem Resize_entries {S : Type} `{DefaultConstructible S}
    (w : Waveform S) (b : WaveformBase) (n i : nat) :
  metadata (base (Waveform_.Resize w n)) = metadata (base w) /\
  m_offsets (base (Waveform_.Resize w n)) !! i =
    resized_entry (m_offsets (base w)) n i /\
  m_durations (base (Waveform_.Resize w n)) !! i =
    resized_entry (m_durations (base w)) n i /\
  m_samples (Waveform_.Resize w n) !! i =
    resized_entry (m_samples w) n i /\
  metadata (WaveformBase_.Resize b n) = metadata b /\
  m_offsets (WaveformBase_.Resize b n) !! i =
    resized_entry (m_offsets b) n i /\
  m_durations (WaveformBase_.Resize b n) !! i =
    resized_entry (m_durations b) n i.
Proof.
  unfold Waveform_.Resize, WaveformBase_.Resize.
  cbn [base m_samples m_offsets m_durations].
  rewrite !lookup_resize. repeat split; reflexivity.
Qed.

(** X8: a [Resize(n)] followed by a [Resize(m)] is one [Resize(m)] when
    the second size is not larger than the first, or when the first call
    did not cut anything off. *)
Theorem Resize_Resize {S : Type} `{DefaultConstructible S}
    (w : Waveform S) (n m : nat) :
  m <= n \/
  (length (m_offsets (base w)) <= n /\ length (m_durations (base w)) <= n /\
   length (m_samples w) <= n) ->
  Waveform_.Resize (Waveform_.Resize w n) m = Waveform_.Resize w m.
Proof.
  intros Hnm. unfold Waveform_.Resize.
  cbn [base m_samples m_offsets m_durations m_timescale m_startTimestamp
       m_startPicoseconds m_triggerPhase].
  rewrite !resize_twice; [reflexivity | | |];
    destruct Hnm as [Hmn | (Ho & Hd & Hs)]; auto.
Qed.

Lemma Resize_Resize_witness :
  (2 <= 5 \/
   (length (m_offsets (base three_samples)) <= 5 /\
    length (m_durations (base three_samples)) <= 5 /\
    length (m_samples three_samples) <= 5)) /\
  Waveform_.Resize (Waveform_.Resize three_samples 5) 2 =
    Waveform_.Resize three_samples 2.
Proof.
  assert (2 <= 5 \/
          (length (m_offsets (base three_samples)) <= 5 /\
           length (m_durations (base three_samples)) <= 5 /\
           length (m_samples three_samples) <= 5)) as Hnm by (left; lia).
  split; [exact Hnm|].
  exact (Resize_Resize three_samples 5 2 Hnm).
Defined.

Lemma apply_call_lengths {S : Type} `{DefaultConstructible S}
    (w : Waveform S) (c : call) :
  lengths (apply_call w c) = (requested c, requested c, requested c).
Proof.
  destruct c as [size|]; unfold lengths; cbn; [|reflexivity].
  rewrite !resize_length. reflexivity.
Qed.

(** X11: after any non-empty sequence of [Resize] and [clear] calls, on
    any waveform, the three vectors have the size the last call asked
    for ([clear] asking for 0); the earlier calls and the sizes before
    them play no part. *)
Theorem lengths_after_calls {S : Type} `{DefaultConstructible S}
    (w : Waveform S) (cs : list call) (c : call) :
  last cs = Some c ->
  lengths (apply_calls cs w) = (requested c, requested c, requested c).
Proof.
  intros Hl. apply last_Some in Hl as [cs' ->].
  unfold apply_calls. rewrite fold_left_app. cbn [fold_left].
  apply apply_call_lengths.
Qed.

Lemma lengths_after_calls_witness :
  last [CallResize 7; CallClear; CallResize 2] = Some (CallResize 2) /\
  lengths (apply_calls [CallResize 7; CallClear; CallResize 2]
             three_samples) = (2, 2, 2).
Proof.
  assert (last [CallResize 7; CallClear; CallResize 2] =
          Some (CallResize 2)) as Hl by reflexivity.
  split; [exact Hl|].
  exact (lengths_after_calls three_samples
           [CallResize 7; CallClear; CallResize 2] (CallResize 2) Hl).
Defined.

(** X12: a wrapper yields the last value assigned to it, whatever it held
    before, an indeterminate value included, and an assignment leaves it
    as a construction from that value would. *)
Theorem last_assignment_wins {T : Type} (w : EmptyConstructorWrapper T)
    (vs : list T) (v : T) :
  last vs = Some v ->
  EmptyConstructorWrapper_.cast (assign_all w vs) = Holds v /\
  assign_all w vs = EmptyConstructorWrapper_.ctor_from v.
Proof.
  intros Hl. apply last_Some in Hl as [vs' ->].
  unfold assign_all. rewrite fold_left_app. cbn. split; reflexivity.
Qed.

Lemma last_assignment_wins_witness :
  last [4%Z; 9%Z] = Some 9%Z /\
  EmptyConstructorWrapper_.cast
    (assign_all EmptyConstructorWrapper_.ctor [4%Z; 9%Z]) = Holds 9%Z /\
  assign_all EmptyConstructorWrapper_.ctor [4%Z; 9%Z] =
    EmptyConstructorWrapper_.ctor_from 9%Z.
Proof.
  assert (last [4%Z; 9%Z] = Some 9%Z) as Hl by reflexivity.
  split; [exact Hl|].
  exact (last_assignment_wins EmptyConstructorWrapper_.ctor [4%Z; 9%Z] 9%Z Hl).
Defined.

(** X13: what [Resize] appends to [m_samples] depends on the waveform
    type: zeros in an [AnalogWaveform], null characters in an
    [AsciiWaveform], empty vectors in a [DigitalBusWaveform], and
    indeterminate values in a [DigitalWaveform]. *)
Theorem appended_samples (a : AnalogWaveform) (t : AsciiWaveform)
    (u : DigitalBusWaveform) (d : DigitalWaveform) (n : nat) :
  added (m_samples a) (m_samples (Waveform_.Resize (S := spec_float) a n)) =
    replicate (n - length (m_samples a)) (S754_zero false) /\
  added (m_samples t) (m_samples (Waveform_.Resize (S := ascii) t n)) =
    replicate (n - length (m_samples t)) zero /\
  added (m_samples u) (m_samples (Waveform_.Resize (S := list bool) u n)) =
    replicate (n - length (m_samples u)) [] /\
  added (m_samples d)
        (m_samples (Waveform_.Resize (S := EmptyConstructorWrapper bool) d n))
    = replicate (n - length (m_samples d)) (Wrapper Indeterminate).
Proof.
  unfold Waveform_.Resize. cbn [m_samples].
  rewrite !resize_added. repeat split; reflexivity.
Qed.

End WaveformCallsFacts.
